(** * Mobile-Lis client: shallow embedding of its storage, HTTP interceptors,
    auth context, screens and aggregation logic. *)

From Stdlib Require Import QArith Qround ZArith Lqa Sorting.Sorted Sorting.Permutation.
From stdpp Require Import base gmap strings list option.



(* ===================================================================== *)
(** ** Local storage (AsyncStorage) *)
(* ===================================================================== *)

Module Storage.

(** AsyncStorage holds string values under string keys; [getItem] yields
    [null] (here [None]) for a missing key. *)
Abbreviation store := (gmap string string).

Definition getItem (k : string) (s : store) : option string := s !! k.
Definition setItem (k v : string) (s : store) : store := <[k := v]> s.
Definition removeItem (k : string) (s : store) : store := delete k s.

Definition TOKEN_KEY : string := "@LisMobile:token".
Definition USER_KEY : string := "@LisMobile:user".

(** JavaScript truthiness of [string | null]: [null] and [""] are falsy. *)
Definition truthy (o : option string) : bool :=
  match o with
  | Some v => negb (String.eqb v "")
  | None => false
  end.

End Storage.

(* ===================================================================== *)
(** ** services/api.ts : the axios interceptors *)
(* ===================================================================== *)

Module Api.
Import Storage.

(** The request headers, as an association list ([config.headers]). *)
Record config := {
  method : string;
  url : string;
  headers : list (string * string);
}.

(** [config.headers.Authorization = v]: overwrite or add the key. *)
Definition set_header (k v : string) (h : list (string * string))
  : list (string * string) :=
  (k, v) :: List.filter (fun kv => negb (String.eqb kv.1 k)) h.

Fixpoint header (k : string) (h : list (string * string)) : option string :=
  match h with
  | [] => None
  | (k', v) :: h' => if String.eqb k' k then Some v else header k h'
  end.

(** Observable effects of an interceptor, in the order they happen. *)
Inductive effect :=
  | RemoveItem (k : string)
  | Navigate (screen : string)
  | ConsoleLog (msg : string)
  | ConsoleError (msg : string).

(** [api.interceptors.request.use(async (config) => ...)]: reads the token,
    adds the bearer header when the token is truthy, logs and returns the
    config. *)
Definition request_interceptor (s : store) (c : config) : config * list effect :=
  let token := getItem TOKEN_KEY s in
  let c' :=
    if truthy token then
      {| method := method c; url := url c;
         headers := set_header "Authorization"
                      (String.append "Bearer " (default "" token)) (headers c) |}
    else c in
  (c', [ConsoleLog "Request:"]).

(** The error response seen by the response interceptor:
    [error.response?.status] is [None] when there is no response. *)
Record error := { status : option Z }.

(** Outcome of the interceptor's promise. *)
Inductive outcome := Resolve | Reject (e : error).

(** [api.interceptors.response.use(onFulfilled, onRejected)]: the success
    path passes the response through; the error path clears the stored
    credentials on a 401 and rejects. *)
Definition response_success (s : store) : store * list effect * outcome :=
  (s, [ConsoleLog "Response:"], Resolve).

Definition response_error (s : store) (e : error) : store * list effect * outcome :=
  let '(s', eff) :=
    if bool_decide (status e = Some 401%Z) then
      (removeItem USER_KEY (removeItem TOKEN_KEY s),
       [RemoveItem TOKEN_KEY; RemoveItem USER_KEY])
    else (s, []) in
  (s', eff ++ [ConsoleError "Response Error:"], Reject e).

End Api.

(* ===================================================================== *)
(** ** contexts/AuthContext.tsx and navigation/AppNavigator.tsx *)
(* ===================================================================== *)

Module Auth.
Import Storage.

Record User := { u_id : string; u_name : string; u_email : string; u_isAdmin : bool }.

(** The provider's React state: [user] and [loading]. *)
Record auth_state := { user : option User; loading : bool }.

(** [useState(null)] and [useState(true)] on mount. *)
Definition initial_state : auth_state := {| user := None; loading := true |}.

(** [signOut]: removes the token, then the user, then [setUser(null)]. *)
Definition signOut (s : store) (a : auth_state) : store * auth_state :=
  let s1 := removeItem TOKEN_KEY s in
  let s2 := removeItem USER_KEY s1 in
  (s2, {| user := None; loading := loading a |}).

(** [loadStoredData]: reads user and token; when both are truthy the user is
    [JSON.parse(storedUser)] ([parse] returns [None] when it throws, which the
    [catch] swallows); [finally] clears [loading]. *)
Definition loadStoredData (parse : string -> option User) (s : store) (a : auth_state)
  : auth_state :=
  let storedUser := getItem USER_KEY s in
  let storedToken := getItem TOKEN_KEY s in
  let u :=
    if truthy storedUser && truthy storedToken then
      match parse (default "" storedUser) with
      | Some v => Some v
      | None => user a
      end
    else user a in
  {| user := u; loading := false |}.

(** App start: fresh provider state, then the mount effect [loadStoredData]. *)
Definition app_start (parse : string -> option User) (s : store) : auth_state :=
  loadStoredData parse s initial_state.

(** [isAdmin: user?.isAdmin || false]. *)
Definition isAdmin (a : auth_state) : bool :=
  match user a with Some u => u_isAdmin u | None => false end.

Inductive screen :=
  | Login | TabNavigator | Home | ProductForm | ProductList | StockList
  | Register | Sales | SalesSummary | CreateAdmin | CustomListDisplay
  | CustomListForm.

(** [AppNavigator]: [null] while loading, otherwise the stack's screens; the
    first one is the one shown. *)
Definition AppNavigator (a : auth_state) : option (list screen) :=
  if loading a then None
  else match user a with
       | Some _ =>
           Some ((if negb (isAdmin a) then TabNavigator else Home)
                 :: [ProductForm; ProductList; StockList; Register; Sales;
                     SalesSummary; CreateAdmin; CustomListDisplay; CustomListForm])
       | None => Some [Login]
       end.

End Auth.

(* ===================================================================== *)
(** ** Products (types/index.ts) and the product screens *)
(* ===================================================================== *)

Module Products.

(** [interface Product]; prices are modelled as exact rationals. *)
Record Product := {
  p_id : string;
  p_name : string;
  p_description : string;
  p_price : Q;
  p_quantity : Z;
  p_category : string;
  p_image : option string;
}.

(** HTTP requests a handler issues. *)
Inductive request :=
  | HttpGet (url : string)
  | HttpPost (url : string)
  | HttpPut (url : string)
  | HttpDelete (url : string).

(** Result of an awaited request: success, or a rejection carrying
    [error.response?.data?.message]. *)
Inductive http_result := Ok | Err (message : option string).

(** JavaScript truthiness of a string. *)
Definition str_truthy (s : string) : bool := negb (String.eqb s "").

(** [a || b] on strings. *)
Definition str_or (a : option string) (b : string) : string :=
  match a with Some m => if str_truthy m then m else b | None => b end.

(* --------------------------------------------------------------------- *)
(** *** screens/ProductFormScreen.tsx *)

Record create_form := {
  cf_name : string; cf_description : string; cf_price : string;
  cf_quantity : string; cf_image : option string;
}.

Record form_state := { fs_loading : bool; fs_error : string; fs_went_back : bool }.

(** [handleSubmit]: validation, then [POST /products] with multipart data;
    on success [navigation.goBack()], on failure the error message. *)
Definition handleSubmit (f : create_form) (post : http_result) (st : form_state)
  : form_state * list request :=
  if negb (str_truthy (cf_name f)) || negb (str_truthy (cf_description f))
     || negb (str_truthy (cf_price f)) || negb (str_truthy (cf_quantity f)) then
    ({| fs_loading := fs_loading st; fs_error := "Por favor, preencha todos os campos";
        fs_went_back := fs_went_back st |}, [])
  else
    let st' :=
      match post with
      | Ok => {| fs_loading := false; fs_error := ""; fs_went_back := true |}
      | Err m => {| fs_loading := false;
                    fs_error := str_or m "Erro ao cadastrar produto. Tente novamente.";
                    fs_went_back := fs_went_back st |}
      end in
    (st', [HttpPost "/products"]).

(* --------------------------------------------------------------------- *)
(** *** screens/ProductListScreen.tsx *)

Record edit_form := {
  ef_name : string; ef_description : string; ef_price : string;
  ef_quantity : string; ef_category : string;
}.

Record list_state := {
  ls_products : list Product;
  ls_loading : bool;
  ls_refreshing : bool;
  ls_error : string;
  ls_editModalVisible : bool;
  ls_selectedProduct : option Product;
}.

(** [handleEditSubmit]: returns when no product is selected, otherwise
    [PUT /products/:id]; on success the product is replaced by the response
    body ([updated]) and the dialog closes, on failure the error is shown
    ([error.message] is folded into [m]). *)
Definition handleEditSubmit (f : edit_form) (put : http_result) (updated : Product)
  (st : list_state) : list_state * list request :=
  match ls_selectedProduct st with
  | None => (st, [])
  | Some sp =>
      let req := HttpPut (String.append "/products/" (p_id sp)) in
      match put with
      | Ok =>
          ({| ls_products := map (fun p => if String.eqb (p_id p) (p_id sp)
                                           then updated else p) (ls_products st);
              ls_loading := ls_loading st; ls_refreshing := ls_refreshing st;
              ls_error := ls_error st; ls_editModalVisible := false;
              ls_selectedProduct := None |}, [req])
      | Err m =>
          ({| ls_products := ls_products st;
              ls_loading := ls_loading st; ls_refreshing := ls_refreshing st;
              ls_error := str_or m "Erro ao atualizar produto. Por favor, tente novamente.";
              ls_editModalVisible := ls_editModalVisible st;
              ls_selectedProduct := ls_selectedProduct st |}, [req])
      end
  end.

(** Successful [loadProducts]: with a [listId] the screen keeps
    [response.data.products || []], otherwise [response.data]; then
    [setError('')] and, in [finally], [setLoading(false)]. *)
Definition fetched_products (listId : option string)
  (data : list Product) (list_products : option (list Product)) : list Product :=
  match listId with
  | Some _ => default [] list_products
  | None => data
  end.

Definition loadProducts_success (listId : option string)
  (data : list Product) (list_products : option (list Product)) (st : list_state)
  : list_state :=
  {| ls_products := fetched_products listId data list_products;
     ls_loading := false; ls_refreshing := ls_refreshing st;
     ls_error := ""; ls_editModalVisible := ls_editModalVisible st;
     ls_selectedProduct := ls_selectedProduct st |}.

(** What a screen's scroll view shows. *)
Inductive view :=
  | VSpinner
  | VError (msg : string)
  | VEmpty (msg : string)
  | VCards (keys : list string).

(** How many item cards a view shows. *)
Definition card_count (v : view) : nat :=
  match v with VCards ks => length ks | _ => 0 end.

(** The render of [ProductListScreen]. *)
Definition ProductListScreen_render (st : list_state) : view :=
  if ls_loading st && negb (ls_refreshing st) then VSpinner
  else if str_truthy (ls_error st) then VError (ls_error st)
  else match ls_products st with
       | [] => VEmpty "Nenhum produto encontrado"
       | ps => VCards (map p_id ps)
       end.

(* --------------------------------------------------------------------- *)
(** *** screens/HomeScreen.tsx : the category filter effect *)

Definition filteredProducts (selectedCategory : string) (products : list Product)
  : list Product :=
  if String.eqb selectedCategory "all" then products
  else List.filter (fun p => String.eqb (p_category p) selectedCategory) products.

End Products.

(* ===================================================================== *)
(** ** screens/StockListScreen.tsx *)
(* ===================================================================== *)

Module StockList.
Import Products.

Record StockList := {
  sl_id : string;
  sl_name : string;
  sl_products : list Product;
  sl_sharedWith : list string;
}.

Record stock_state := {
  st_lists : list StockList;
  st_loading : bool;
  st_refreshing : bool;
  st_error : string;
  st_selectedProducts : list string;
}.

(** Successful [loadLists]: [setLists(response.data)], [setError('')],
    then [setLoading(false)]. *)
Definition loadLists_success (data : list StockList) (st : stock_state) : stock_state :=
  {| st_lists := data; st_loading := false; st_refreshing := st_refreshing st;
     st_error := ""; st_selectedProducts := st_selectedProducts st |}.

(** The render of [StockListScreen]. *)
Definition StockListScreen_render (st : stock_state) : view :=
  if st_loading st then VSpinner
  else if str_truthy (st_error st) then VError (st_error st)
  else match st_lists st with
       | [] => VEmpty "Nenhuma lista encontrada"
       | ls => VCards (map sl_id ls)
       end.

(** [prev.includes(id)]. *)
Definition includes (id : string) (prev : list string) : bool :=
  existsb (fun x => String.eqb x id) prev.

(** The checkbox [onPress] updater: [prev.includes(id) ? prev.filter(x =>
    x !== id) : [...prev, id]]. *)
Definition toggle (id : string) (prev : list string) : list string :=
  if includes id prev then List.filter (fun x => negb (String.eqb x id)) prev
  else prev ++ [id].

End StockList.

(* ===================================================================== *)
(** ** Money helpers *)
(* ===================================================================== *)

Module Money.
Local Open Scope Q_scope.

(** [a || d] for a [number | undefined]: [undefined] and [0] are falsy. *)
Definition q_or (a : option Q) (d : Q) : Q :=
  match a with
  | Some c => if Qeq_bool c 0 then d else c
  | None => d
  end.

(** [Number(x) || 0]; a missing or non-numeric field is [None] ([NaN]). *)
Definition number_or0 (a : option Q) : Q := q_or a 0.

(** [Number(x.toFixed(2))]: round to the nearest cent, halves away from
    zero (toFixed rounds the magnitude and keeps the sign). *)
Definition toFixed2 (q : Q) : Q :=
  if Qle_bool 0 q then Qmake (Qfloor (q * 100 + (1#2))%Q) 100
  else Qmake (- Qfloor (- q * 100 + (1#2))%Q) 100.

(** IEEE 754 binary64 rounding to nearest, ties to even: the double a
    JavaScript number literal, [Number(string)] or an arithmetic result
    denotes (53-bit significands, subnormals down to [2^-1074]; results
    here never reach the overflow threshold [2^1024]). *)
Definition round_double (q : Q) : Q :=
  let n := Qnum q in
  let d := Zpos (Qden q) in
  let a := Z.abs n in
  if Z.eqb a 0 then 0 else
  let e0 := (Z.log2 a - Z.log2 d)%Z in
  let at_least (e : Z) : bool :=
    if Z.leb 0 e then Z.leb (d * 2 ^ e) a else Z.leb d (a * 2 ^ (- e)) in
  let e := if at_least e0 then e0 else (e0 - 1)%Z in
  let k := Z.max (e - 52) (-1074) in
  let num := if Z.leb k 0 then (a * 2 ^ (- k))%Z else a in
  let den := if Z.leb k 0 then d else (d * 2 ^ k)%Z in
  let fl := (num / den)%Z in
  let r := (num mod den)%Z in
  let m := if Z.ltb (2 * r) den then fl
           else if Z.ltb den (2 * r) then (fl + 1)%Z
           else if Z.even fl then fl else (fl + 1)%Z in
  let mag := if Z.leb 0 k then inject_Z (m * 2 ^ k) else Qmake m (Z.to_pos (2 ^ (- k))) in
  if Z.ltb n 0 then - mag else mag.

(** The literal [0.3] (the double [5404319552844595 / 2^54]). *)
Definition js_0_3 : Q := round_double (3#10).

(** [a * b] on numbers: the exact product rounded to a double. *)
Definition dmul (a b : Q) : Q := round_double (a * b).

(** [a < b] on numbers. *)
Definition Qlt_bool (a b : Q) : bool := negb (Qle_bool b a).

(** [arr.reduce((acc, x) => acc + f(x), 0)]. *)
Definition reduce_sum {A} (f : A -> Q) (l : list A) : Q :=
  fold_left (fun acc x => acc + f x) l 0.


End Money.

(* ===================================================================== *)
(** ** screens/SalesScreen.tsx *)
(* ===================================================================== *)

Module SalesScreen.
Import Money Products.
Local Open Scope Q_scope.

(** The screen's own [interface Product]. *)
Record SProduct := {
  sp_id : string; sp_name : string; sp_description : string;
  sp_price : Q; sp_commission : option Q; sp_image : option string;
}.

(** [loadProducts]: [commission: product.commission || (product.price * 0.3)]. *)
Definition with_commission (p : SProduct) : SProduct :=
  {| sp_id := sp_id p; sp_name := sp_name p; sp_description := sp_description p;
     sp_price := sp_price p;
     sp_commission := Some (q_or (sp_commission p) (dmul (sp_price p) js_0_3));
     sp_image := sp_image p |}.

Definition loadProducts_success (data : list SProduct) : list SProduct :=
  map with_commission data.

(** In the table body: [const commission = product.commission ||
    (product.price * 0.3)], shown as [commission.toFixed(2)]. *)
Definition row_commission (p : SProduct) : Q :=
  q_or (sp_commission p) (dmul (sp_price p) js_0_3).

Definition row_commission_shown (p : SProduct) : Q := toFixed2 (row_commission p).

(** A sale as the backend stores it ([interface Sale]). *)
Record Sale := {
  s_userId : string;
  s_products : list (string * Z);
  s_total : Q;
}.

(** [interface Sales { [productId: string]: number }]. *)
Abbreviation sales_map := (gmap string Z).

(** [sales[productId] || 0]. *)
Definition get (m : sales_map) (p : string) : Z := default 0%Z (m !! p).

(** Inner loop of [loadSales]:
    [salesCount[id] = (salesCount[id] || 0) + product.quantity]. *)
Definition count_sale (acc : sales_map) (s : Sale) : sales_map :=
  fold_left (fun m (l : string * Z) => <[l.1 := (get m l.1 + l.2)%Z]> m)
            (s_products s) acc.

Definition salesCount (userSales : list Sale) : sales_map :=
  fold_left count_sale userSales ∅.

Definition user_sales (uid : string) (backend : list Sale) : list Sale :=
  List.filter (fun s => String.eqb (s_userId s) uid) backend.

Record screen_state := {
  sales : sales_map;
  allSales : list Sale;
  processingProduct : option string;
  success : string;
  error : string;
}.

(** The screen together with the backend's sale records. *)
Record world := { scr : screen_state; backend : list Sale }.

(** [loadSales]: runs only when [user?._id] is truthy; [load_ok] says
    whether [GET /api/sales] succeeded (a failure is only logged). *)
Definition loadSales (uid : string) (load_ok : bool) (w : world)
  : world * list request :=
  if str_truthy uid then
    if load_ok then
      let us := user_sales uid (backend w) in
      let s := scr w in
      ({| scr := {| sales := salesCount us; allSales := us;
                    processingProduct := processingProduct s;
                    success := success s; error := error s |};
          backend := backend w |}, [HttpGet "/api/sales"])
    else (w, [HttpGet "/api/sales"])
  else (w, []).

Definition set_scr (w : world) (s : screen_state) : world :=
  {| scr := s; backend := backend w |}.

Definition set_error (m : string) (s : screen_state) : screen_state :=
  {| sales := sales s; allSales := allSales s; processingProduct := processingProduct s;
     success := success s; error := m |}.

Definition set_processing (p : option string) (s : screen_state) : screen_state :=
  {| sales := sales s; allSales := allSales s; processingProduct := p;
     success := success s; error := error s |}.

(** [handleQuantityChange(productId, increment)]. [post] is the outcome of
    [POST /api/sales]; on success the backend records the sale under the
    signed-in user [uid]. The [setTimeout] that later clears the error is a
    timer effect and is not modelled. *)
Definition handleQuantityChange (products : list SProduct) (uid : string)
  (productId : string) (increment : bool) (post : http_result) (load_ok : bool)
  (w : world) : world * list request :=
  match List.find (fun p => String.eqb (sp_id p) productId) products with
  | None => (w, [])
  | Some product =>
    let currentQuantity := get (sales (scr w)) productId in
    if negb increment && Z.eqb currentQuantity 0 then (w, [])
    else
    let newQuantity := if increment then (currentQuantity + 1)%Z
                       else (currentQuantity - 1)%Z in
    let w1 := set_scr w (set_processing (Some productId) (scr w)) in
    let '(w2, reqs) :=
      match post with
      | Ok =>
          let sale := {| s_userId := uid;
                         s_products := [(productId, if increment then 1%Z else (-1)%Z)];
                         s_total := if increment then sp_price product
                                    else - sp_price product |} in
          let s1 := scr w1 in
          let w1' := {| scr := {| sales := <[productId := newQuantity]> (sales s1);
                                  allSales := allSales s1;
                                  processingProduct := processingProduct s1;
                                  success := success s1; error := error s1 |};
                        backend := backend w1 ++ [sale] |} in
          let '(w1'', rs) := loadSales uid load_ok w1' in
          let s2 := scr w1'' in
          (set_scr w1'' {| sales := sales s2; allSales := allSales s2;
                           processingProduct := processingProduct s2;
                           success := if increment then "Venda registrada!"
                                      else "Devolução registrada!";
                           error := error s2 |},
           HttpPost "/api/sales" :: rs)
      | Err m =>
          (set_scr w1 (set_error (str_or m "Erro ao processar venda") (scr w1)),
           [HttpPost "/api/sales"])
      end in
    let w3 := set_scr w2 (set_processing None (scr w2)) in
    let w4 :=
      if increment && Qlt_bool (sp_price product) 0 then
        set_scr w3 (set_error "Preço do produto não pode ser negativo." (scr w3))
      else if negb increment && (Z.leb currentQuantity 0 || Qlt_bool (sp_price product) 0) then
        set_scr w3 (set_error
          "Não é possível devolver mais do que foi vendido ou preço negativo." (scr w3))
      else w3 in
    (w4, reqs)
  end.

(** One press of a [+]/[-] button with the outcomes of its requests. *)
Record press := {
  pr_product : string; pr_increment : bool; pr_post : http_result; pr_load_ok : bool;
}.

Fixpoint run (products : list SProduct) (uid : string) (ps : list press) (w : world)
  : world :=
  match ps with
  | [] => w
  | p :: ps' =>
      run products uid ps'
        (fst (handleQuantityChange products uid (pr_product p) (pr_increment p)
                (pr_post p) (pr_load_ok p) w))
  end.

(** [calculateTotals]. *)
Definition calculateTotals (s : screen_state) : Z * Q :=
  let totalSubtotal := reduce_sum s_total (allSales s) in
  let totalQuantity := map_fold (fun _ q acc => (acc + Z.max 0 q)%Z) 0%Z (sales s) in
  (totalQuantity, totalSubtotal).

End SalesScreen.

(* ===================================================================== *)
(** ** SalesSummaryScreen (in screens/HomeScreen.tsx) *)
(* ===================================================================== *)

Module SalesSummary.
Import Money.
Local Open Scope Q_scope.

(** A product line of a record of [GET /api/sales/summary]. *)
Record raw_line := {
  rl_productId : string; rl_name : string; rl_quantity : Q; rl_price : Q;
}.

(** A record of the summary response; [total] and [commission] are [None]
    when absent or not numeric ([Number(...)] is [NaN]). *)
Record raw_sale := {
  r_id : string;
  r_userId : string;
  r_userName : option string;
  r_products : list raw_line;
  r_total : option Q;
  r_commission : option Q;
  r_createdAt : string;
}.

Record grouped_line := {
  g_productId : string; g_name : string; g_quantity : Q; g_price : Q; g_subtotal : Q;
}.

Record formatted_sale := {
  f_id : string;
  f_userId : string;
  f_userName : string;
  f_products : list grouped_line;
  f_total : Q;
  f_commission : Q;
  f_createdAt : string;
}.

(** One step of the [groupedProducts] reduce, on an association list in
    insertion order ([Object.values] lists the non-index keys that way). *)
Fixpoint add_line (acc : list (string * grouped_line)) (p : raw_line)
  : list (string * grouped_line) :=
  match acc with
  | [] => [(rl_productId p,
            {| g_productId := rl_productId p; g_name := rl_name p;
               g_quantity := 0 + rl_quantity p; g_price := rl_price p;
               g_subtotal := 0 + rl_quantity p * rl_price p |})]
  | (k, g) :: acc' =>
      if String.eqb k (rl_productId p) then
        (k, {| g_productId := g_productId g; g_name := g_name g;
               g_quantity := g_quantity g + rl_quantity p; g_price := g_price g;
               g_subtotal := g_subtotal g + rl_quantity p * rl_price p |}) :: acc'
      else (k, g) :: add_line acc' p
  end.

Definition groupedProducts (ps : list raw_line) : list grouped_line :=
  map snd (fold_left add_line ps []).

(** The [response.map(...)] of [fetchSales]. *)
Definition formatSale (sale : raw_sale) : formatted_sale :=
  let total := number_or0 (r_total sale) in
  let commission := q_or (r_commission sale) (round_double (toFixed2 (dmul total js_0_3))) in
  {| f_id := r_id sale;
     f_userId := r_userId sale;
     f_userName := Products.str_or (r_userName sale) "Usuário não identificado";
     f_products := groupedProducts (r_products sale);
     f_total := total;
     f_commission := commission;
     f_createdAt := r_createdAt sale |}.



(** Replace the product lines of a record (used to compare records that
    differ only in their lines, e.g. with duplicates merged). *)
Definition with_products (ls : list raw_line) (s : raw_sale) : raw_sale :=
  {| r_id := r_id s; r_userId := r_userId s; r_userName := r_userName s;
     r_products := ls; r_total := r_total s; r_commission := r_commission s;
     r_createdAt := r_createdAt s |}.

End SalesSummary.

(* ===================================================================== *)
(** ** services/api.ts [login] and AuthContext [signIn] *)
(* ===================================================================== *)

Module AuthFlow.
Import Storage Auth.

(** [login(email, password)]: [POST /api/login]; on success the returned
    token is stored under the token key and [{ token, user }] returned; on
    failure the error is rethrown ([None]) and nothing is stored. [resp] is
    [response.data] of a successful post. *)
Definition login (resp : option (string * User)) (s : store)
  : option (store * (string * User)) :=
  match resp with
  | Some (token, u) => Some (setItem TOKEN_KEY token s, (token, u))
  | None => None
  end.

(** [signIn]: [apiLogin], then the user stored as [JSON.stringify(userData)]
    and [setUser(userData)]; an error propagates ([None]). *)
Definition signIn (stringify : User -> string) (resp : option (string * User))
  (s : store) (a : auth_state) : option (store * auth_state) :=
  match login resp s with
  | Some (s1, (_, u)) =>
      Some (setItem USER_KEY (stringify u) s1, {| user := Some u; loading := loading a |})
  | None => None
  end.

End AuthFlow.

(* ===================================================================== *)
(** ** ProductListScreen: delete and failed load *)
(* ===================================================================== *)

Module ProductListOps.
Import Products.


(** Failed [loadProducts]: [error.response?.data?.message || error.message
    || default] (both messages folded into [m]), then [setLoading(false)]. *)
Definition loadProducts_failure (m : option string) (st : list_state) : list_state :=
  {| ls_products := ls_products st; ls_loading := false;
     ls_refreshing := ls_refreshing st;
     ls_error := str_or m "Erro ao carregar produtos. Por favor, tente novamente.";
     ls_editModalVisible := ls_editModalVisible st;
     ls_selectedProduct := ls_selectedProduct st |}.

End ProductListOps.

(* ===================================================================== *)
(** ** StockListScreen: [handleCreateList] *)
(* ===================================================================== *)

Module StockListOps.
Import Products.

(** A JavaScript string as its UTF-16 code units. *)
Abbreviation js_string := (list Z).

(** The code units [String.prototype.trim] removes: WhiteSpace (tab,
    vertical tab, form feed, U+FEFF and the space separators: space,
    U+00A0, U+1680, U+2000 to U+200A, U+202F, U+205F, U+3000) and
    LineTerminator (line feed, carriage return, U+2028, U+2029). *)
Definition is_ws (c : Z) : bool :=
  (Z.eqb c 9 || Z.eqb c 10 || Z.eqb c 11 || Z.eqb c 12 || Z.eqb c 13 ||
   Z.eqb c 32 || Z.eqb c 160 || Z.eqb c 5760 ||
   (Z.leb 8192 c && Z.leb c 8202) ||
   Z.eqb c 8232 || Z.eqb c 8233 || Z.eqb c 8239 || Z.eqb c 8287 ||
   Z.eqb c 12288 || Z.eqb c 65279)%bool.

Fixpoint trim_start (s : js_string) : js_string :=
  match s with
  | [] => []
  | c :: s' => if is_ws c then trim_start s' else s
  end.

(** [s.trim()]. *)
Definition trim (s : js_string) : js_string := rev (trim_start (rev (trim_start s))).





End StockListOps.

(* ===================================================================== *)
(** ** SalesSummaryScreen: grouping by user, sort, expansion *)
(* ===================================================================== *)

Module SummaryGroups.
Import Money SalesSummary.
Local Open Scope Q_scope.

(** [interface GroupedSales]. *)
Record GroupedSales := {
  gs_userId : string;
  gs_userName : string;
  gs_sales : list formatted_sale;
  gs_totalValue : Q;
  gs_totalCommission : Q;
}.



(** [.sort((a, b) => b.totalValue - a.totalValue)]: a stable sort (as
    [Array.prototype.sort] is), written as insertion sort. *)
Fixpoint insert_desc (x : GroupedSales) (l : list GroupedSales) : list GroupedSales :=
  match l with
  | [] => [x]
  | y :: l' => if Qlt_bool (gs_totalValue y) (gs_totalValue x) then x :: y :: l'
               else y :: insert_desc x l'
  end.

Definition sort_desc (l : list GroupedSales) : list GroupedSales :=
  fold_left (fun acc x => insert_desc x acc) l [].


(** [toggleUserExpansion]: [{ ...prev, [userId]: !prev[userId] }]. *)
Definition toggleUserExpansion (userId : string) (prev : gmap string bool)
  : gmap string bool :=
  <[userId := negb (default false (prev !! userId))]> prev.

End SummaryGroups.

(* ===================================================================== *)
(** * Properties *)
(* ===================================================================== *)

Import Storage Api Auth Products StockList.

Example request_adds_bearer :
  header "Authorization"
    (headers (fst (request_interceptor ({[TOKEN_KEY := "abc"]} : store)
                     {| method := "get"; url := "/x"; headers := [] |})))
  = Some "Bearer abc".
Proof. reflexivity. Qed.

Example response_401_example :
  (fst (fst (response_error ({[TOKEN_KEY := "t"]} : store) {| status := Some 401%Z |})))
    !! TOKEN_KEY = None.
Proof. reflexivity. Qed.

Lemma TOKEN_USER_ne : TOKEN_KEY <> USER_KEY.
Proof. discriminate. Qed.

(** C2: after [signOut] neither the token nor the user is stored, so a
    restart's [loadStoredData] leaves [user] null and the navigator shows
    only the Login screen, whatever the prior state and storage. *)
Theorem signOut_restart_shows_login
  (parse : string -> option User) (s : store) (a : auth_state) :
  let '(s', a') := signOut s a in
  getItem TOKEN_KEY s' = None /\ getItem USER_KEY s' = None /\ user a' = None /\
  user (app_start parse s') = None /\ loading (app_start parse s') = false /\
  AppNavigator (app_start parse s') = Some [Login].
Proof.
  unfold signOut, app_start, loadStoredData, getItem, removeItem.
  assert (Ht : delete USER_KEY (delete TOKEN_KEY s) !! TOKEN_KEY = None).
  { rewrite lookup_delete_ne; [apply lookup_delete_eq | discriminate]. }
  assert (Hu : delete USER_KEY (delete TOKEN_KEY s) !! USER_KEY = None).
  { apply lookup_delete_eq. }
  rewrite Ht, Hu. simpl. repeat split; reflexivity.
Qed.

(** C4: on an error response with status 401 the interceptor removes the
    stored token and user (nothing else) and emits no navigation; with any
    other error status, or no response, or on success, the store is left as
    it was. *)
Theorem response_interceptor_401 (s : store) (e : error) :
  let '(s', eff, out) := response_error s e in
  (status e = Some 401%Z ->
     s' !! TOKEN_KEY = None /\ s' !! USER_KEY = None /\
     (forall k, k <> TOKEN_KEY -> k <> USER_KEY -> s' !! k = s !! k)) /\
  (status e <> Some 401%Z -> s' = s) /\
  (forall scr, ~ In (Navigate scr) eff) /\ out = Reject e /\
  fst (fst (response_success s)) = s.
Proof.
  unfold response_error, removeItem.
  case_bool_decide as H; simpl;
    refine (conj _ (conj _ (conj _ (conj eq_refl eq_refl)))).
  - intros _. refine (conj _ (conj _ _)).
    + rewrite lookup_delete_ne; [apply lookup_delete_eq | discriminate].
    + apply lookup_delete_eq.
    + intros k Hk1 Hk2. rewrite !lookup_delete_ne; congruence.
  - intros Hn. congruence.
  - intros scr [Hx | [Hx | [Hx | []]]]; discriminate.
  - intros Hn. congruence.
  - intros _. reflexivity.
  - intros scr [Hx | []]; discriminate.
Qed.

Lemma response_interceptor_401_witness :
  status {| status := Some 401%Z |} = Some 401%Z /\
  (let '(s', eff, out) := response_error ({[TOKEN_KEY := "t"]} : store) {| status := Some 401%Z |} in
   (status {| status := Some 401%Z |} = Some 401%Z ->
      s' !! TOKEN_KEY = None /\ s' !! USER_KEY = None /\
      (forall k, k <> TOKEN_KEY -> k <> USER_KEY -> s' !! k = ({[TOKEN_KEY := "t"]} : store) !! k)) /\
   (status {| status := Some 401%Z |} <> Some 401%Z -> s' = ({[TOKEN_KEY := "t"]} : store)) /\
   (forall scr, ~ In (Navigate scr) eff) /\ out = Reject {| status := Some 401%Z |} /\
   fst (fst (response_success ({[TOKEN_KEY := "t"]} : store))) = ({[TOKEN_KEY := "t"]} : store)).
Proof.
  split; [reflexivity | apply (response_interceptor_401 ({[TOKEN_KEY := "t"]} : store))].
Defined.

(** C8, as stated: a stored empty token is present in storage yet gets no
    Authorization header. *)
Lemma request_interceptor_empty_token_counterexample :
  let s : store := {[TOKEN_KEY := ""]} in
  let c := {| method := "get"; url := "/api/products"; headers := [] |} in
  getItem TOKEN_KEY s = Some "" /\
  header "Authorization" (headers (fst (request_interceptor s c))) = None.
Proof. split; reflexivity. Qed.

(** C8, amended: when a non-empty token [t] is stored the request carries
    [Authorization: Bearer t] (method and URL untouched); when no token or
    the empty string is stored the config is returned unchanged. *)
Theorem request_interceptor_bearer (s : store) (c : config) :
  let c' := fst (request_interceptor s c) in
  (forall t, getItem TOKEN_KEY s = Some t -> t <> "" ->
     header "Authorization" (headers c') = Some (String.append "Bearer " t) /\
     method c' = method c /\ url c' = url c) /\
  ((getItem TOKEN_KEY s = None \/ getItem TOKEN_KEY s = Some "") -> c' = c).
Proof.
  unfold request_interceptor; simpl. split.
  - intros t Ht Hne. rewrite Ht. unfold truthy.
    destruct (String.eqb_spec t "") as [E | _]; [contradiction |]. simpl.
    unfold set_header. simpl. repeat split.
  - intros [H | H]; rewrite H; reflexivity.
Qed.

Lemma request_interceptor_bearer_witness :
  getItem TOKEN_KEY ({[TOKEN_KEY := "abc"]} : store) = Some "abc" /\ "abc" <> "" /\
  header "Authorization"
    (headers (fst (request_interceptor ({[TOKEN_KEY := "abc"]} : store)
                     {| method := "get"; url := "/x"; headers := [] |})))
  = Some (String.append "Bearer " "abc").
Proof.
  split; [reflexivity | split; [discriminate |]].
  apply (proj1 (request_interceptor_bearer ({[TOKEN_KEY := "abc"]} : store)
                  {| method := "get"; url := "/x"; headers := [] |}) "abc");
    [reflexivity | discriminate].
Defined.

(** C3 (create form): if any of name, description, price or quantity is
    empty, [handleSubmit] issues no request and sets a non-empty error. *)
Theorem handleSubmit_blocks_empty_field (f : create_form) (post : http_result)
  (st : form_state) :
  (cf_name f = "" \/ cf_description f = "" \/ cf_price f = "" \/ cf_quantity f = "") ->
  snd (handleSubmit f post st) = [] /\ fs_error (fst (handleSubmit f post st)) <> "".
Proof.
  intros H. unfold handleSubmit, str_truthy.
  assert (Hv : (negb (negb (String.eqb (cf_name f) "")) ||
                negb (negb (String.eqb (cf_description f) "")) ||
                negb (negb (String.eqb (cf_price f) "")) ||
                negb (negb (String.eqb (cf_quantity f) "")))%bool = true).
  { destruct H as [H | [H | [H | H]]]; rewrite H; simpl;
      rewrite ?Bool.orb_true_r; reflexivity. }
  rewrite Hv. simpl. split; [reflexivity | discriminate].
Qed.

Definition form0 : create_form :=
  {| cf_name := "Vaso"; cf_description := ""; cf_price := "10";
     cf_quantity := "2"; cf_image := None |}.

Definition form_state0 : form_state :=
  {| fs_loading := false; fs_error := ""; fs_went_back := false |}.

Lemma handleSubmit_blocks_empty_field_witness :
  snd (handleSubmit form0 Ok form_state0) = [] /\
  fs_error (fst (handleSubmit form0 Ok form_state0)) <> "".
Proof.
  apply (handleSubmit_blocks_empty_field form0 Ok form_state0).
  right; left; reflexivity.
Defined.

Definition product0 : Product :=
  {| p_id := "p1"; p_name := "Vaso"; p_description := "Ceramica";
     p_price := 10; p_quantity := 2; p_category := "decor"; p_image := None |}.

Definition empty_edit_form : edit_form :=
  {| ef_name := ""; ef_description := ""; ef_price := ""; ef_quantity := "";
     ef_category := "" |}.

Definition list_state0 : list_state :=
  {| ls_products := [product0]; ls_loading := false; ls_refreshing := false;
     ls_error := ""; ls_editModalVisible := true; ls_selectedProduct := Some product0 |}.

(** C3 (edit form): with every field of the edit dialog empty,
    [handleEditSubmit] still issues [PUT /products/p1] and sets no error. *)
Theorem handleEditSubmit_empty_form_sends_put :
  snd (handleEditSubmit empty_edit_form Ok product0 list_state0) = [HttpPut "/products/p1"] /\
  ls_error (fst (handleEditSubmit empty_edit_form Ok product0 list_state0)) = "".
Proof. split; reflexivity. Qed.

(** Stdlib [filter] keeps an order-preserving sublist. *)
Lemma filter_sublist {A} (f : A -> bool) (l : list A) : sublist (List.filter f l) l.
Proof.
  induction l as [|x l IH]; simpl.
  - constructor.
  - destruct (f x); [apply sublist_skip | apply sublist_cons]; exact IH.
Qed.

(** C6: with category ["all"] the filter yields the whole list; with any
    other category it yields an order-preserving sublist that contains a
    product iff the product is in the list with that category, and keeps
    each entry of that category once per occurrence, in order (the
    [flat_map] form). *)
Theorem filteredProducts_spec (sel : string) (products : list Product) :
  (sel = "all" -> filteredProducts sel products = products) /\
  (sel <> "all" ->
     sublist (filteredProducts sel products) products /\
     (forall p, In p (filteredProducts sel products) <->
                In p products /\ p_category p = sel) /\
     filteredProducts sel products =
       flat_map (fun p => if String.eqb (p_category p) sel then [p] else []) products).
Proof.
  unfold filteredProducts. split.
  - intros ->. reflexivity.
  - intros Hne. apply String.eqb_neq in Hne. rewrite Hne.
    split; [apply filter_sublist | split].
    + intros p. rewrite filter_In, String.eqb_eq. tauto.
    + induction products as [|x l IH]; simpl; [reflexivity |].
      destruct (String.eqb (p_category x) sel); simpl; rewrite IH; reflexivity.
Qed.

Lemma filteredProducts_spec_witness :
  filteredProducts "decor" [product0] = [product0] /\
  sublist (filteredProducts "decor" [product0]) [product0].
Proof.
  split; [reflexivity |].
  apply (proj2 (filteredProducts_spec "decor" [product0])). discriminate.
Defined.

(** C7: after a successful fetch the product list screen shows one card per
    fetched entry, keyed by its id (so as many cards as entries), or the
    empty message and no card when the fetch returned nothing; likewise the
    stock-list screen for its lists. *)
Theorem render_after_fetch_cards
  (listId : option string) (data : list Product) (list_products : option (list Product))
  (st : list_state) (lists : list StockList) (st2 : stock_state) :
  let ps := fetched_products listId data list_products in
  let v := ProductListScreen_render (loadProducts_success listId data list_products st) in
  let v2 := StockListScreen_render (loadLists_success lists st2) in
  v = (match ps with [] => VEmpty "Nenhum produto encontrado"
                   | _ => VCards (map p_id ps) end) /\
  card_count v = length ps /\
  v2 = (match lists with [] => VEmpty "Nenhuma lista encontrada"
                       | _ => VCards (map sl_id lists) end) /\
  card_count v2 = length lists.
Proof.
  unfold ProductListScreen_render, StockListScreen_render,
         loadProducts_success, loadLists_success; simpl.
  destruct (fetched_products listId data list_products) as [|x l];
    destruct lists as [|y m]; simpl; rewrite ?length_map; repeat split.
Qed.

Lemma includes_In (id : string) (l : list string) : includes id l = true <-> In id l.
Proof.
  unfold includes. rewrite existsb_exists. split.
  - intros (x & Hx & E). apply String.eqb_eq in E. subst. exact Hx.
  - intros H. exists id. split; [exact H | apply String.eqb_refl].
Qed.

Lemma In_remove_id (id x : string) (l : list string) :
  In x (List.filter (fun y => negb (String.eqb y id)) l) <-> In x l /\ x <> id.
Proof.
  rewrite filter_In. destruct (String.eqb_spec x id); simpl; intuition congruence.
Qed.

Lemma In_toggle (id x : string) (l : list string) :
  In x (toggle id l) <-> (if includes id l then In x l /\ x <> id
                          else In x l \/ x = id).
Proof.
  unfold toggle. destruct (includes id l).
  - apply In_remove_id.
  - rewrite in_app_iff. simpl. intuition.
Qed.

Lemma includes_toggle (id : string) (l : list string) :
  includes id (toggle id l) = negb (includes id l).
Proof.
  apply Bool.eq_true_iff_eq. rewrite includes_In, In_toggle.
  destruct (includes id l) eqn:E; simpl.
  - split; [intros [_ H]; congruence | discriminate].
  - split; [reflexivity | intros _; right; reflexivity].
Qed.

(** C10: toggling the same id twice gives back the same members, and one
    toggle flips the membership of that id only. *)
Theorem toggle_membership (id : string) (prev : list string) :
  (forall x, In x (toggle id (toggle id prev)) <-> In x prev) /\
  (forall x, x <> id -> (In x (toggle id prev) <-> In x prev)) /\
  (In id (toggle id prev) <-> ~ In id prev).
Proof.
  split; [| split].
  - intros x. rewrite In_toggle, includes_toggle.
    pose proof (In_toggle id x prev) as T.
    destruct (includes id prev) eqn:E; simpl; rewrite T.
    + apply includes_In in E.
      destruct (String.eqb_spec x id) as [-> | Hne]; intuition.
    + assert (Hn : ~ In id prev) by (rewrite <- includes_In; congruence).
      destruct (String.eqb_spec x id) as [-> | Hne]; intuition.
  - intros x Hne. rewrite In_toggle. destruct (includes id prev); intuition.
  - rewrite In_toggle. pose proof (includes_In id prev) as I.
    destruct (includes id prev); intuition congruence.
Qed.

Lemma toggle_membership_witness :
  toggle "p1" ["p2"] = ["p2"; "p1"] /\
  (In "p2" (toggle "p1" ["p2"]) <-> In "p2" ["p2"]).
Proof.
  split; [reflexivity |].
  apply (proj1 (proj2 (toggle_membership "p1" ["p2"]))). discriminate.
Defined.

(* --------------------------------------------------------------------- *)
(** ** Sales screens *)

Import Money SalesScreen SalesSummary.
Local Open Scope Q_scope.




Lemma q_or_falsy (a : option Q) (d : Q) :
  match a with None => True | Some c => c == 0 end -> q_or a d = d.
Proof.
  destruct a as [c|]; simpl; [| reflexivity].
  intros H. apply Qeq_bool_iff in H. rewrite H. reflexivity.
Qed.

Definition summary_sale0 : raw_sale :=
  {| r_id := "s1"; r_userId := "u1"; r_userName := Some "Ana";
     r_products := [{| rl_productId := "p1"; rl_name := "Vaso";
                       rl_quantity := 1; rl_price := 100 |}];
     r_total := Some 100; r_commission := Some 0; r_createdAt := "2024-01-01" |}.




Definition sproduct335 : SProduct :=
  {| sp_id := "p3"; sp_name := "Caneca"; sp_description := "";
     sp_price := round_double (335#100); sp_commission := None; sp_image := None |}.

Definition summary_sale335 : raw_sale :=
  {| r_id := "s3"; r_userId := "u1"; r_userName := Some "Ana"; r_products := [];
     r_total := Some (round_double (335#100)); r_commission := None;
     r_createdAt := "2024-01-03" |}.

(** C5, as stated: at a price (resp. total) of [3.35] without commission,
    30% of the amount rounded to two decimals is [1.01], but the screen
    shows [1.00] and the summary assigns [1]: [3.35 * 0.3] in double
    precision is [1.00499999999999989...]. *)
Lemma commission_fallback_rounding_counterexample :
  row_commission_shown (with_commission sproduct335) == 1 /\
  toFixed2 (sp_price sproduct335 * (3#10)) == 101#100 /\
  f_commission (formatSale summary_sale335) == 1 /\
  toFixed2 (number_or0 (r_total summary_sale335) * (3#10)) == 101#100.
Proof. vm_compute. repeat split; reflexivity. Qed.

(** C5, amended: a product without commission (absent or zero) is given,
    and shown with, the commission [price * 0.3] computed in double
    precision ([toFixed(2)] on screen); a summary record without commission
    gets [Number((total * 0.3).toFixed(2))], the double product rounded to
    cents and read back as a double. *)
Theorem commission_fallback_30 (p : SProduct) (r : raw_sale) :
  (match sp_commission p with None => True | Some c => c == 0 end ->
     sp_commission (with_commission p) = Some (dmul (sp_price p) js_0_3) /\
     row_commission (with_commission p) = dmul (sp_price p) js_0_3 /\
     row_commission_shown (with_commission p) = toFixed2 (dmul (sp_price p) js_0_3)) /\
  (match r_commission r with None => True | Some c => c == 0 end ->
     f_commission (formatSale r) =
       round_double (toFixed2 (dmul (number_or0 (r_total r)) js_0_3))).
Proof.
  split.
  - intros H.
    assert (E : sp_commission (with_commission p) = Some (dmul (sp_price p) js_0_3)).
    { simpl. rewrite (q_or_falsy _ _ H). reflexivity. }
    assert (R : row_commission (with_commission p) = dmul (sp_price p) js_0_3).
    { unfold row_commission. rewrite E. simpl.
      destruct (Qeq_bool (dmul (sp_price p) js_0_3) 0); reflexivity. }
    split; [exact E | split; [exact R |]].
    unfold row_commission_shown. rewrite R. reflexivity.
  - intros H. unfold formatSale. simpl. apply q_or_falsy. exact H.
Qed.

Definition sproduct0 : SProduct :=
  {| sp_id := "p1"; sp_name := "Vaso"; sp_description := "Ceramica";
     sp_price := 10; sp_commission := None; sp_image := None |}.

Lemma commission_fallback_30_witness :
  row_commission (with_commission sproduct0) = dmul 10 js_0_3 /\
  f_commission (formatSale (with_products [] summary_sale0)) =
    round_double (toFixed2 (dmul (number_or0 (Some 100)) js_0_3)).
Proof.
  split.
  - apply (proj1 (commission_fallback_30 sproduct0 summary_sale0)). exact I.
  - apply (proj2 (commission_fallback_30 sproduct0 (with_products [] summary_sale0))).
    reflexivity.
Defined.

(** A decrement of a product whose sold quantity is 0 returns at once:
    same world, no request. *)
Theorem decrement_at_zero_noop (products : list SProduct) (uid productId : string)
  (post : http_result) (load_ok : bool) (w : world) :
  get (sales (scr w)) productId = 0%Z ->
  handleQuantityChange products uid productId false post load_ok w = (w, []).
Proof.
  intros H. unfold handleQuantityChange.
  destruct (List.find _ products); [| reflexivity].
  rewrite H. reflexivity.
Qed.

Definition world0 : world :=
  {| scr := {| sales := ∅; allSales := []; processingProduct := None;
               success := ""; error := "" |};
     backend := [] |}.

(** Counts the backend holds for [uid], as [loadSales] computes them. *)
Definition backend_count (uid : string) (b : list Sale) (p : string) : Z :=
  get (salesCount (user_sales uid b)) p.

(** The screen's counts agree with the backend's and are non-negative. *)
Definition sales_inv (uid : string) (w : world) : Prop :=
  forall p, get (sales (scr w)) p = backend_count uid (backend w) p /\
            (0 <= get (sales (scr w)) p)%Z.

Lemma get_insert (m : sales_map) (k p : string) (v : Z) :
  get (<[k := v]> m) p = if String.eqb p k then v else get m p.
Proof.
  unfold get. destruct (String.eqb_spec p k) as [-> | Hne].
  - rewrite lookup_insert_eq. reflexivity.
  - rewrite lookup_insert_ne by congruence. reflexivity.
Qed.

Lemma backend_count_snoc (uid pid : string) (d : Z) (t : Q) (b : list Sale) (p : string) :
  backend_count uid (b ++ [{| s_userId := uid; s_products := [(pid, d)]; s_total := t |}]) p
  = if String.eqb p pid then (backend_count uid b pid + d)%Z else backend_count uid b p.
Proof.
  unfold backend_count, user_sales, salesCount.
  rewrite List.filter_app. simpl. rewrite String.eqb_refl, fold_left_app. simpl.
  unfold count_sale at 1. simpl. apply get_insert.
Qed.

Lemma backend_count_no_user (uid : string) (b : list Sale) (p : string) :
  Forall (fun s => s_userId s <> uid) b -> backend_count uid b p = 0%Z.
Proof.
  intros H. unfold backend_count, user_sales.
  replace (List.filter _ b) with (@nil Sale); [reflexivity |].
  induction H as [|s b Hs _ IH]; simpl; [reflexivity |].
  destruct (String.eqb_spec (s_userId s) uid); [contradiction | exact IH].
Qed.

Lemma loadSales_inv (uid : string) (load_ok : bool) (w : world) :
  sales_inv uid w -> sales_inv uid (fst (loadSales uid load_ok w)).
Proof.
  intros H. unfold loadSales.
  destruct (str_truthy uid); [destruct load_ok |]; try exact H.
  intros p. simpl. destruct (H p) as [E N].
  unfold backend_count in *. split; [reflexivity | lia].
Qed.

(** Every press keeps [sales_inv]. *)
Lemma handleQuantityChange_inv (products : list SProduct) (uid pid : string)
  (inc : bool) (post : http_result) (load_ok : bool) (w : world) :
  sales_inv uid w ->
  sales_inv uid (fst (handleQuantityChange products uid pid inc post load_ok w)).
Proof.
  intros Hinv. unfold handleQuantityChange.
  destruct (List.find _ products) as [product |]; [| exact Hinv].
  destruct (negb inc && Z.eqb (get (sales (scr w)) pid) 0)%bool eqn:Eguard;
    [exact Hinv |].
  assert (Hnew : forall p,
    get (<[pid := if inc then (get (sales (scr w)) pid + 1)%Z
                  else (get (sales (scr w)) pid - 1)%Z]> (sales (scr w))) p =
    backend_count uid (backend w ++
      [{| s_userId := uid; s_products := [(pid, if inc then 1%Z else (-1)%Z)];
          s_total := if inc then sp_price product else - sp_price product |}]) p /\
    (0 <= get (<[pid := if inc then (get (sales (scr w)) pid + 1)%Z
                  else (get (sales (scr w)) pid - 1)%Z]> (sales (scr w))) p)%Z).
  { intros p. rewrite get_insert, backend_count_snoc.
    destruct (Hinv pid) as [Ep Np].
    destruct (String.eqb_spec p pid) as [-> | Hne].
    - destruct inc; simpl in Eguard; split; lia.
    - apply Hinv. }
  destruct post as [| m]; cbn [fst].
  - match goal with
    | |- context [loadSales uid load_ok ?w1] =>
        assert (H1 : sales_inv uid w1) by (intros p; apply Hnew);
        apply (loadSales_inv uid load_ok) in H1;
        destruct (loadSales uid load_ok w1) as [w2 rs]
    end.
    simpl in H1.
    destruct (inc && Qlt_bool (sp_price product) 0)%bool;
      [| destruct (negb inc && (Z.leb (get (sales (scr w)) pid) 0
                                || Qlt_bool (sp_price product) 0))%bool];
      exact H1.
  - destruct (inc && Qlt_bool (sp_price product) 0)%bool;
      [| destruct (negb inc && (Z.leb (get (sales (scr w)) pid) 0
                                || Qlt_bool (sp_price product) 0))%bool];
      exact Hinv.
Qed.

(** The screen's counts are non-negative and never above the backend's. *)
Definition sales_bounded (uid : string) (w : world) : Prop :=
  forall p, (0 <= get (sales (scr w)) p <= backend_count uid (backend w) p)%Z.

Lemma loadSales_bounded (uid : string) (load_ok : bool) (w : world) :
  sales_bounded uid w -> sales_bounded uid (fst (loadSales uid load_ok w)).
Proof.
  intros H. unfold loadSales.
  destruct (str_truthy uid); [destruct load_ok |]; try exact H.
  intros p. simpl. destruct (H p) as [N E].
  unfold backend_count in *. lia.
Qed.

(** Every press keeps [sales_bounded]. *)
Lemma handleQuantityChange_bounded (products : list SProduct) (uid pid : string)
  (inc : bool) (post : http_result) (load_ok : bool) (w : world) :
  sales_bounded uid w ->
  sales_bounded uid (fst (handleQuantityChange products uid pid inc post load_ok w)).
Proof.
  intros Hinv. unfold handleQuantityChange.
  destruct (List.find _ products) as [product |]; [| exact Hinv].
  destruct (negb inc && Z.eqb (get (sales (scr w)) pid) 0)%bool eqn:Eguard;
    [exact Hinv |].
  assert (Hnew : forall p,
    (0 <= get (<[pid := if inc then (get (sales (scr w)) pid + 1)%Z
                  else (get (sales (scr w)) pid - 1)%Z]> (sales (scr w))) p <=
    backend_count uid (backend w ++
      [{| s_userId := uid; s_products := [(pid, if inc then 1%Z else (-1)%Z)];
          s_total := if inc then sp_price product else - sp_price product |}]) p)%Z).
  { intros p. rewrite get_insert, backend_count_snoc.
    destruct (Hinv pid) as [Np Ep].
    destruct (String.eqb_spec p pid) as [-> | Hne].
    - destruct inc; simpl in Eguard; lia.
    - apply Hinv. }
  destruct post as [| m]; cbn [fst].
  - match goal with
    | |- context [loadSales uid load_ok ?w1] =>
        assert (H1 : sales_bounded uid w1) by (intros p; apply Hnew);
        apply (loadSales_bounded uid load_ok) in H1;
        destruct (loadSales uid load_ok w1) as [w2 rs]
    end.
    simpl in H1.
    destruct (inc && Qlt_bool (sp_price product) 0)%bool;
      [| destruct (negb inc && (Z.leb (get (sales (scr w)) pid) 0
                                || Qlt_bool (sp_price product) 0))%bool];
      exact H1.
  - destruct (inc && Qlt_bool (sp_price product) 0)%bool;
      [| destruct (negb inc && (Z.leb (get (sales (scr w)) pid) 0
                                || Qlt_bool (sp_price product) 0))%bool];
      exact Hinv.
Qed.

Lemma backend_count_nil (uid p : string) : backend_count uid [] p = 0%Z.
Proof.
  unfold backend_count, get, salesCount, user_sales. simpl.
  rewrite lookup_empty. reflexivity.
Qed.

(** From the empty sales map, when the counts the backend holds for this
    user are all non-negative, no sequence of [+]/[-] presses makes a
    quantity negative. *)
Theorem sales_never_negative (products : list SProduct) (uid : string)
  (b0 : list Sale) (ps : list press) :
  (forall p, 0 <= backend_count uid b0 p)%Z ->
  forall p,
    (0 <= get (sales (scr (run products uid ps
                 {| scr := {| sales := ∅; allSales := []; processingProduct := None;
                              success := ""; error := "" |};
                    backend := b0 |}))) p)%Z.
Proof.
  intros Hb p.
  assert (Hinit : sales_bounded uid
            {| scr := {| sales := ∅; allSales := []; processingProduct := None;
                         success := ""; error := "" |};
               backend := b0 |}).
  { intros q. simpl. unfold get. rewrite lookup_empty. simpl. split; [lia | apply Hb]. }
  revert Hinit. generalize {| scr := {| sales := ∅; allSales := []; processingProduct := None;
                                      success := ""; error := "" |};
                            backend := b0 |} as w.
  induction ps as [|pr ps IH]; intros w Hw; simpl.
  - apply Hw.
  - apply IH. apply handleQuantityChange_bounded. exact Hw.
Qed.

Definition backend_neg : list Sale :=
  [{| s_userId := "u1"; s_products := [("p1", (-2)%Z)]; s_total := -20 |}].

(** C9, as stated: a later session also starts from the empty sales map,
    but its first successful reload brings in the counts saved on the
    backend; a net negative saved count (e.g. [-2], after returns made on
    another device) stays negative after one [+] press. *)
Lemma decrement_guard_saved_negative_counterexample :
  get (sales (scr (run [sproduct0] "u1"
     [{| pr_product := "p1"; pr_increment := true; pr_post := Ok; pr_load_ok := true |}]
     {| scr := {| sales := ∅; allSales := []; processingProduct := None;
                  success := ""; error := "" |};
        backend := backend_neg |}))) "p1" = (-1)%Z.
Proof. vm_compute. reflexivity. Qed.

(** C9, amended: a decrement of a product whose sold quantity is 0 returns
    at once (same screen state, including sales, success and error
    messages, and no request); and from the empty sales map, provided the
    counts the backend holds for the user are non-negative, no sequence of
    [+]/[-] presses, each with any outcome of its requests, makes a stored
    quantity negative. *)
Theorem decrement_guard_keeps_sales_nonnegative :
  (forall (products : list SProduct) (uid productId : string) (post : http_result)
          (load_ok : bool) (w : world),
     get (sales (scr w)) productId = 0%Z ->
     handleQuantityChange products uid productId false post load_ok w = (w, [])) /\
  (forall (products : list SProduct) (uid : string) (b0 : list Sale) (ps : list press),
     (forall p, 0 <= backend_count uid b0 p)%Z ->
     forall p,
       (0 <= get (sales (scr (run products uid ps
                    {| scr := {| sales := ∅; allSales := []; processingProduct := None;
                                 success := ""; error := "" |};
                       backend := b0 |}))) p)%Z).
Proof.
  split; [apply decrement_at_zero_noop | apply sales_never_negative].
Qed.

Definition backend_pos : list Sale :=
  [{| s_userId := "u1"; s_products := [("p1", 2%Z)]; s_total := 20 |}].

Definition presses0 : list press :=
  [{| pr_product := "p1"; pr_increment := false; pr_post := Ok; pr_load_ok := true |};
   {| pr_product := "p1"; pr_increment := true; pr_post := Ok; pr_load_ok := true |};
   {| pr_product := "p1"; pr_increment := false; pr_post := Ok; pr_load_ok := false |}].

Lemma decrement_guard_keeps_sales_nonnegative_witness :
  handleQuantityChange [sproduct0] "u1" "p1" false Ok true world0 = (world0, []) /\
  (0 <= get (sales (scr (run [sproduct0] "u1" presses0
     {| scr := {| sales := ∅; allSales := []; processingProduct := None;
                  success := ""; error := "" |};
        backend := backend_pos |}))) "p1")%Z.
Proof.
  split.
  - apply (proj1 decrement_guard_keeps_sales_nonnegative). reflexivity.
  - apply (proj2 decrement_guard_keeps_sales_nonnegative).
    intros p. unfold backend_pos.
    change [{| s_userId := "u1"; s_products := [("p1", 2%Z)]; s_total := 20 |}]
      with ([] ++ [{| s_userId := "u1"; s_products := [("p1", 2%Z)]; s_total := 20 |}]).
    rewrite backend_count_snoc, !backend_count_nil.
    destruct (String.eqb p "p1"); lia.
Defined.

Example run_presses0 :
  get (sales (scr (run [sproduct0] "u1" presses0 world0))) "p1" = 0%Z /\
  length (backend (run [sproduct0] "u1" presses0 world0)) = 2%nat.
Proof. vm_compute. split; reflexivity. Qed.

(* --------------------------------------------------------------------- *)
(** ** Further properties of the modelled code *)

Import AuthFlow ProductListOps StockListOps SummaryGroups.

(** A restart shows only the Login screen exactly when the stored user or
    token is missing or empty, or the stored user does not parse. *)
Theorem restart_login_iff (parse : string -> option User) (s : store) :
  AppNavigator (app_start parse s) = Some [Login] <->
  ~ (truthy (getItem USER_KEY s) = true /\ truthy (getItem TOKEN_KEY s) = true /\
     is_Some (parse (default "" (getItem USER_KEY s)))).
Proof.
  unfold app_start, loadStoredData, AppNavigator, initial_state. simpl.
  destruct (truthy (getItem USER_KEY s)), (truthy (getItem TOKEN_KEY s)); simpl;
    try (split; [intros _ [? [? _]]; discriminate | reflexivity]).
  destruct (parse (default "" (getItem USER_KEY s))) as [u |]; simpl.
  - split; [discriminate | intros H; exfalso; apply H; repeat split; eexists; reflexivity].
  - split; [intros _ (_ & _ & [x Hx]); discriminate | reflexivity].
Qed.

(** After [signIn] with a non-empty token, and a user whose JSON form is
    non-empty and parses back, a restart restores that user: the navigator
    opens on Home for an admin and on the tabs otherwise. *)
Theorem signIn_restart_restores_user (stringify : User -> string)
  (parse : string -> option User) (token : string) (u : User) (s : store)
  (a : auth_state) :
  token <> "" -> stringify u <> "" -> parse (stringify u) = Some u ->
  exists s' a', signIn stringify (Some (token, u)) s a = Some (s', a') /\
    user a' = Some u /\ user (app_start parse s') = Some u /\
    option_map (hd Login) (AppNavigator (app_start parse s')) =
      Some (if u_isAdmin u then Home else TabNavigator).
Proof.
  intros Ht Hs Hp. unfold signIn, login. simpl.
  eexists _, _. split; [reflexivity |]. split; [reflexivity |].
  unfold app_start, loadStoredData, getItem, setItem.
  rewrite lookup_insert_eq, lookup_insert_ne by discriminate.
  rewrite lookup_insert_eq. unfold truthy. simpl.
  apply String.eqb_neq in Ht, Hs. rewrite Ht, Hs. simpl. rewrite Hp. simpl.
  split; [reflexivity |]. unfold AppNavigator, isAdmin. simpl.
  destruct (u_isAdmin u); reflexivity.
Qed.

Definition user0 : User :=
  {| u_id := "u1"; u_name := "Ana"; u_email := "ana@lis.com"; u_isAdmin := false |}.

Definition stringify0 (u : User) : string := "{}".
Definition parse0 (j : string) : option User := if String.eqb j "{}" then Some user0 else None.

Lemma signIn_restart_restores_user_witness :
  exists s' a', signIn stringify0 (Some ("tok", user0)) ∅ initial_state = Some (s', a') /\
    user a' = Some user0 /\ user (app_start parse0 s') = Some user0 /\
    option_map (hd Login) (AppNavigator (app_start parse0 s')) =
      Some (if u_isAdmin user0 then Home else TabNavigator).
Proof.
  apply signIn_restart_restores_user; [discriminate | discriminate | reflexivity].
Defined.

(** After [signIn] with a non-empty token every request carries
    [Authorization: Bearer <token>]. *)
Theorem signIn_then_bearer (stringify : User -> string) (token : string) (u : User)
  (s : store) (a : auth_state) (c : config) :
  token <> "" ->
  exists s' a', signIn stringify (Some (token, u)) s a = Some (s', a') /\
    header "Authorization" (headers (fst (request_interceptor s' c))) =
      Some (String.append "Bearer " token).
Proof.
  intros Ht. unfold signIn, login. eexists _, _. split; [reflexivity |].
  apply (proj1 (request_interceptor_bearer _ c) token); [| exact Ht].
  unfold getItem, setItem. rewrite lookup_insert_ne by discriminate.
  apply lookup_insert_eq.
Qed.

Lemma signIn_then_bearer_witness :
  exists s' a', signIn stringify0 (Some ("tok", user0)) ∅ initial_state = Some (s', a') /\
    header "Authorization"
      (headers (fst (request_interceptor s' {| method := "get"; url := "/products";
                                              headers := [] |}))) =
      Some (String.append "Bearer " "tok").
Proof. apply signIn_then_bearer. discriminate. Defined.

(** After a 401 response, a restart shows only Login and any later request
    gets no Authorization header from the interceptor. *)
Theorem after_401_logged_out (parse : string -> option User) (s : store) (e : Api.error)
  (c : config) :
  status e = Some 401%Z ->
  let s' := fst (fst (response_error s e)) in
  AppNavigator (app_start parse s') = Some [Login] /\
  fst (request_interceptor s' c) = c.
Proof.
  intros H. simpl.
  pose proof (response_interceptor_401 s e) as R.
  destruct (response_error s e) as [[s' eff] out]. simpl.
  destruct R as [R _]. destruct (R H) as (Ht & Hu & _).
  split.
  - apply restart_login_iff. unfold getItem. rewrite Hu. intros [Hf _]. discriminate.
  - apply (proj2 (request_interceptor_bearer s' c)). left. exact Ht.
Qed.

Lemma after_401_logged_out_witness :
  AppNavigator (app_start parse0
    (fst (fst (response_error {[TOKEN_KEY := "t"; USER_KEY := "{}"]}
                              {| status := Some 401%Z |})))) = Some [Login].
Proof. apply (after_401_logged_out parse0 _ _ {| method := "get"; url := "/"; headers := [] |}).
  reflexivity. Defined.

Lemma str_or_nonempty (m : option string) (d : string) :
  d <> "" -> str_or m d <> "".
Proof.
  intros Hd. unfold str_or, str_truthy.
  destruct m as [x |]; [| exact Hd].
  destruct (String.eqb_spec x ""); simpl; congruence.
Qed.

(** With every required field filled, [handleSubmit] sends exactly one
    [POST /products]; on success it goes back with the error cleared, on
    failure it stays with a non-empty error message. *)
Theorem handleSubmit_filled_posts_once (f : create_form) (post : http_result)
  (st : form_state) :
  cf_name f <> "" -> cf_description f <> "" -> cf_price f <> "" -> cf_quantity f <> "" ->
  snd (handleSubmit f post st) = [HttpPost "/products"] /\
  fs_loading (fst (handleSubmit f post st)) = false /\
  (post = Ok -> fs_went_back (fst (handleSubmit f post st)) = true /\
                fs_error (fst (handleSubmit f post st)) = "") /\
  (forall m, post = Err m -> fs_went_back (fst (handleSubmit f post st)) = fs_went_back st /\
                             fs_error (fst (handleSubmit f post st)) <> "").
Proof.
  intros H1 H2 H3 H4. unfold handleSubmit, str_truthy.
  apply String.eqb_neq in H1, H2, H3, H4. rewrite H1, H2, H3, H4. simpl.
  destruct post as [| m]; simpl;
    refine (conj eq_refl (conj eq_refl (conj _ _))).
  - intros _. split; reflexivity.
  - intros m E. discriminate.
  - intros E. discriminate.
  - intros m' E. injection E as <-. split; [reflexivity |].
    apply str_or_nonempty. discriminate.
Qed.

Definition form1 : create_form :=
  {| cf_name := "Vaso"; cf_description := "Ceramica"; cf_price := "10";
     cf_quantity := "2"; cf_image := None |}.

Lemma handleSubmit_filled_posts_once_witness :
  snd (handleSubmit form1 Ok form_state0) = [HttpPost "/products"].
Proof.
  apply (handleSubmit_filled_posts_once form1 Ok form_state0); discriminate.
Defined.

(** A successful edit keeps the list's length, leaves every product with
    another id as it was, puts the server's product where the edited one was,
    and closes the dialog; a failed edit keeps the list and the dialog and
    shows a non-empty error. *)
Theorem handleEditSubmit_effect (f : edit_form) (put : http_result) (updated sp : Product)
  (st : list_state) :
  ls_selectedProduct st = Some sp ->
  let st' := fst (handleEditSubmit f put updated st) in
  snd (handleEditSubmit f put updated st) = [HttpPut (String.append "/products/" (p_id sp))] /\
  (put = Ok ->
     length (ls_products st') = length (ls_products st) /\
     (forall i p, ls_products st !! i = Some p ->
        ls_products st' !! i = Some (if String.eqb (p_id p) (p_id sp) then updated else p)) /\
     ls_editModalVisible st' = false /\ ls_selectedProduct st' = None) /\
  (forall m, put = Err m ->
     ls_products st' = ls_products st /\ ls_selectedProduct st' = Some sp /\
     ls_error st' <> "").
Proof.
  intros Hs. unfold handleEditSubmit. rewrite Hs. simpl.
  destruct put as [| m]; simpl.
  - split; [reflexivity | split; [| intros; discriminate]].
    intros _. split; [apply length_map |]. split; [| split; reflexivity].
    intros i p Hi. rewrite list_lookup_fmap, Hi. reflexivity.
  - split; [reflexivity | split; [intros; discriminate |]].
    intros m' E. injection E as <-. split; [reflexivity | split; [reflexivity |]].
    apply str_or_nonempty. discriminate.
Qed.

Lemma handleEditSubmit_effect_witness :
  snd (handleEditSubmit empty_edit_form Ok product0 list_state0) =
    [HttpPut (String.append "/products/" (p_id product0))].
Proof. apply (handleEditSubmit_effect _ _ _ product0 list_state0). reflexivity. Defined.




(** A failed load leaves the spinner and shows a non-empty error message
    and no card. *)
Theorem loadProducts_failure_shows_error (m : option string) (st : list_state) :
  let st' := loadProducts_failure m st in
  ProductListScreen_render st' = VError (ls_error st') /\ ls_error st' <> "" /\
  card_count (ProductListScreen_render st') = 0%nat.
Proof.
  assert (Hne : str_or m "Erro ao carregar produtos. Por favor, tente novamente." <> "")
    by (apply str_or_nonempty; discriminate).
  unfold ProductListScreen_render, loadProducts_failure. simpl.
  unfold str_truthy. apply String.eqb_neq in Hne as Hb. rewrite Hb. simpl.
  split; [reflexivity | split; [exact Hne | reflexivity]].
Qed.

Example trim_example :
  trim [160; 86; 105; 32; 9; 12288]%Z = [86; 105]%Z /\ trim [133; 86]%Z = [133; 86]%Z.
Proof. split; reflexivity. Qed.







Example toFixed2_examples :
  toFixed2 (2997#1000) == 3 /\ toFixed2 (-(1005#1000)) == -(101#100) /\
  toFixed2 (1#1000) == 0.
Proof. vm_compute. repeat split; reflexivity. Qed.










Definition line0 (id : string) (q : Q) : raw_line :=
  {| rl_productId := id; rl_name := id; rl_quantity := q; rl_price := 10 |}.

Example groupedProducts_example :
  map (fun g => (g_productId g, g_quantity g)) (groupedProducts
    [line0 "p1" 1; line0 "p2" 2; line0 "p1" (-1)]) = [("p1", 1 + -1); ("p2", 0 + 2)].
Proof. reflexivity. Qed.

















Lemma insert_desc_perm (x : GroupedSales) (l : list GroupedSales) :
  Permutation (x :: l) (insert_desc x l).
Proof.
  induction l as [| y l IH]; simpl; [reflexivity |].
  destruct (Qlt_bool (gs_totalValue y) (gs_totalValue x)); [reflexivity |].
  rewrite perm_swap. constructor. exact IH.
Qed.

Lemma sort_desc_perm_acc (l acc : list GroupedSales) :
  Permutation (rev l ++ acc) (fold_left (fun acc x => insert_desc x acc) l acc).
Proof.
  revert acc. induction l as [| x l IH]; intros acc; simpl; [reflexivity |].
  rewrite <- IH, <- app_assoc. simpl.
  apply Permutation_app_head, insert_desc_perm.
Qed.

Definition desc (a b : GroupedSales) : Prop := gs_totalValue b <= gs_totalValue a.

Lemma insert_desc_sorted (x : GroupedSales) (l : list GroupedSales) :
  Sorted desc l -> Sorted desc (insert_desc x l).
Proof.
  induction l as [| y l IH]; intros H; simpl.
  - repeat constructor.
  - inversion H as [| ? ? Hl Hy]; subst.
    unfold Qlt_bool. destruct (Qle_bool (gs_totalValue x) (gs_totalValue y)) eqn:E; simpl.
    + apply Qle_bool_iff in E.
      constructor; [apply IH, Hl |].
      destruct l as [| z l]; simpl; [constructor; exact E |].
      destruct (Qlt_bool (gs_totalValue z) (gs_totalValue x)); constructor;
        [exact E | inversion Hy; assumption].
    + constructor; [exact H |]. constructor. unfold desc.
      apply Qlt_le_weak, Qnot_le_lt. intros C. apply Qle_bool_iff in C. congruence.
Qed.

(** The [groupedSalesArray] sort orders the groups by decreasing
    [totalValue] and keeps every group: it is a permutation of its input. *)
Theorem sort_desc_sorted_perm (l : list GroupedSales) :
  Sorted desc (sort_desc l) /\ Permutation l (sort_desc l).
Proof.
  split.
  - unfold sort_desc.
    assert (G : forall acc, Sorted desc acc ->
                  Sorted desc (fold_left (fun acc x => insert_desc x acc) l acc)).
    { induction l as [| x l IH]; intros acc H; simpl; [exact H |].
      apply IH, insert_desc_sorted, H. }
    apply G. constructor.
  - unfold sort_desc. rewrite <- sort_desc_perm_acc, app_nil_r.
    apply Permutation_rev.
Qed.


(** [toggleUserExpansion] flips the user's entry (a missing entry counts as
    collapsed), leaves every other entry as it was, and toggling twice gives
    back the original expansion state of every user. *)
Theorem toggleUserExpansion_flip (userId : string) (prev : gmap string bool) :
  toggleUserExpansion userId prev !! userId = Some (negb (default false (prev !! userId))) /\
  (forall v, v <> userId -> toggleUserExpansion userId prev !! v = prev !! v) /\
  (forall v, default false (toggleUserExpansion userId (toggleUserExpansion userId prev) !! v)
             = default false (prev !! v)).
Proof.
  unfold toggleUserExpansion.
  split; [apply lookup_insert_eq |].
  split; [intros v Hv; apply lookup_insert_ne; congruence |].
  intros v. destruct (String.eqb_spec v userId) as [-> | Hne].
  - rewrite !lookup_insert_eq. simpl. rewrite Bool.negb_involutive.
    destruct (prev !! userId); reflexivity.
  - rewrite !lookup_insert_ne by congruence. reflexivity.
Qed.

Ltac split_all :=
  repeat match goal with
         | |- _ /\ _ => split
         | |- _ -> _ => intros
         end; try discriminate; try reflexivity.

Lemma press_guard_passes (w : world) (pid : string) (inc : bool) :
  (inc = true \/ get (sales (scr w)) pid <> 0%Z) ->
  (negb inc && Z.eqb (get (sales (scr w)) pid) 0)%bool = false.
Proof.
  intros [-> | H]; [reflexivity |].
  apply Z.eqb_neq in H. rewrite H. apply Bool.andb_false_r.
Qed.

(** A press whose [POST /api/sales] fails records nothing: the backend,
    the counts and the loaded sales are unchanged, the only request is the
    post, the spinner is cleared and an error message is shown. *)
Theorem handleQuantityChange_post_failure (products : list SProduct) (uid pid : string)
  (inc : bool) (m : option string) (load_ok : bool) (w : world) (product : SProduct) :
  List.find (fun p => String.eqb (sp_id p) pid) products = Some product ->
  (inc = true \/ get (sales (scr w)) pid <> 0%Z) ->
  let '(w', reqs) := handleQuantityChange products uid pid inc (Err m) load_ok w in
  backend w' = backend w /\ sales (scr w') = sales (scr w) /\
  allSales (scr w') = allSales (scr w) /\ success (scr w') = success (scr w) /\
  processingProduct (scr w') = None /\ error (scr w') <> "" /\
  reqs = [HttpPost "/api/sales"].
Proof.
  intros Hf Hg. unfold handleQuantityChange. rewrite Hf, (press_guard_passes w pid inc Hg).
  pose proof (str_or_nonempty m "Erro ao processar venda" ltac:(discriminate)) as Hm.
  destruct (inc && Qlt_bool (sp_price product) 0)%bool;
    [| destruct (negb inc && (Z.leb (get (sales (scr w)) pid) 0
                              || Qlt_bool (sp_price product) 0))%bool];
    simpl; split_all; try discriminate; exact Hm.
Qed.

(** A press whose post succeeds appends exactly one sale of the product to
    the backend ([+1] at its price, or [-1] at minus its price, under the
    signed-in user), clears the spinner, shows the success message unless a
    price check overrides the error, issues the post followed by the reload
    (when a user is signed in), and after a successful reload the screen's
    counts and loaded sales are exactly the backend's for that user. *)
Theorem handleQuantityChange_post_success (products : list SProduct) (uid pid : string)
  (inc : bool) (load_ok : bool) (w : world) (product : SProduct) :
  List.find (fun p => String.eqb (sp_id p) pid) products = Some product ->
  (inc = true \/ get (sales (scr w)) pid <> 0%Z) ->
  let '(w', reqs) := handleQuantityChange products uid pid inc Ok load_ok w in
  backend w' = backend w ++
    [{| s_userId := uid; s_products := [(pid, if inc then 1%Z else (-1)%Z)];
        s_total := if inc then sp_price product else - sp_price product |}] /\
  processingProduct (scr w') = None /\
  success (scr w') = (if inc then "Venda registrada!" else "Devolução registrada!") /\
  reqs = HttpPost "/api/sales" :: (if str_truthy uid then [HttpGet "/api/sales"] else []) /\
  (str_truthy uid = true -> load_ok = true ->
     allSales (scr w') = user_sales uid (backend w') /\
     sales (scr w') = salesCount (allSales (scr w'))).
Proof.
  intros Hf Hg. unfold handleQuantityChange. rewrite Hf, (press_guard_passes w pid inc Hg).
  unfold loadSales. destruct (str_truthy uid); [destruct load_ok |];
  destruct (inc && Qlt_bool (sp_price product) 0)%bool;
    try destruct (negb inc && (Z.leb (get (sales (scr w)) pid) 0
                              || Qlt_bool (sp_price product) 0))%bool;
    simpl; split_all.
Qed.

(** The negative-price check runs after the request: a [+] press of a
    product with a negative price whose post succeeds still records a sale
    with that negative total, and only then shows the price error. *)
Theorem negative_price_sale_still_recorded (products : list SProduct) (uid pid : string)
  (load_ok : bool) (w : world) (product : SProduct) :
  List.find (fun p => String.eqb (sp_id p) pid) products = Some product ->
  sp_price product < 0 ->
  let '(w', _) := handleQuantityChange products uid pid true Ok load_ok w in
  backend w' = backend w ++
     [{| s_userId := uid; s_products := [(pid, 1%Z)]; s_total := sp_price product |}] /\
  error (scr w') = "Preço do produto não pode ser negativo.".
Proof.
  intros Hf Hp. unfold handleQuantityChange. rewrite Hf. simpl.
  assert (E : Qlt_bool (sp_price product) 0 = true).
  { unfold Qlt_bool. destruct (Qle_bool 0 (sp_price product)) eqn:C; [| reflexivity].
    apply Qle_bool_iff in C. exfalso. apply (Qlt_not_le _ _ Hp C). }
  rewrite E. unfold loadSales.
  destruct (str_truthy uid); [destruct load_ok |]; simpl; split; reflexivity.
Qed.

(** Starting with no sale of the signed-in user on the backend and an
    empty count map, after any sequence of presses (each with any outcome
    of its requests) every count the screen shows equals the quantity the
    backend holds for that user and product. *)
Theorem sales_in_sync_with_backend (products : list SProduct) (uid : string)
  (b0 : list Sale) (ps : list press) :
  Forall (fun s => s_userId s <> uid) b0 ->
  let w := run products uid ps
             {| scr := {| sales := ∅; allSales := []; processingProduct := None;
                          success := ""; error := "" |};
                backend := b0 |} in
  forall p, get (sales (scr w)) p = backend_count uid (backend w) p.
Proof.
  intros Hb. simpl.
  assert (Hinit : sales_inv uid
            {| scr := {| sales := ∅; allSales := []; processingProduct := None;
                         success := ""; error := "" |};
               backend := b0 |}).
  { intros q. simpl. rewrite (backend_count_no_user uid b0 q Hb). split; reflexivity. }
  revert Hinit. generalize {| scr := {| sales := ∅; allSales := []; processingProduct := None;
                                      success := ""; error := "" |};
                            backend := b0 |} as w.
  induction ps as [|pr ps IH]; intros w Hw p; simpl.
  - apply Hw.
  - apply IH. apply handleQuantityChange_inv. exact Hw.
Qed.

(** [calculateTotals] never reports a negative item count, whatever the
    stored counts are. *)
Theorem calculateTotals_quantity_nonneg (s : screen_state) :
  (0 <= (calculateTotals s).1)%Z.
Proof.
  unfold calculateTotals. simpl.
  induction (sales s) as [| k q m Hk IH] using map_ind.
  - rewrite map_fold_empty. lia.
  - rewrite map_fold_insert_L; [lia | | exact Hk].
    intros. lia.
Qed.

Lemma handleQuantityChange_post_failure_witness :
  List.find (fun p => String.eqb (sp_id p) "p1") [sproduct0] = Some sproduct0 /\
  (true = true \/ get (sales (scr world0)) "p1" <> 0%Z) /\
  let '(w', reqs) := handleQuantityChange [sproduct0] "u1" "p1" true (Err None) true world0 in
  backend w' = backend world0 /\ sales (scr w') = sales (scr world0) /\
  allSales (scr w') = allSales (scr world0) /\ success (scr w') = success (scr world0) /\
  processingProduct (scr w') = None /\ error (scr w') <> "" /\
  reqs = [HttpPost "/api/sales"].
Proof.
  refine (conj eq_refl (conj (or_introl eq_refl) _)).
  apply (handleQuantityChange_post_failure [sproduct0] "u1" "p1" true None true world0 sproduct0);
    [reflexivity | left; reflexivity].
Defined.

Lemma handleQuantityChange_post_success_witness :
  List.find (fun p => String.eqb (sp_id p) "p1") [sproduct0] = Some sproduct0 /\
  (true = true \/ get (sales (scr world0)) "p1" <> 0%Z) /\
  let '(w', reqs) := handleQuantityChange [sproduct0] "u1" "p1" true Ok true world0 in
  backend w' = backend world0 ++
    [{| s_userId := "u1"; s_products := [("p1", 1%Z)]; s_total := sp_price sproduct0 |}] /\
  processingProduct (scr w') = None /\
  success (scr w') = "Venda registrada!" /\
  reqs = HttpPost "/api/sales" :: (if str_truthy "u1" then [HttpGet "/api/sales"] else []) /\
  (str_truthy "u1" = true -> true = true ->
     allSales (scr w') = user_sales "u1" (backend w') /\
     sales (scr w') = salesCount (allSales (scr w'))).
Proof.
  refine (conj eq_refl (conj (or_introl eq_refl) _)).
  apply (handleQuantityChange_post_success [sproduct0] "u1" "p1" true true world0 sproduct0);
    [reflexivity | left; reflexivity].
Defined.

Definition sproduct_neg : SProduct :=
  {| sp_id := "p2"; sp_name := "Brinde"; sp_description := "";
     sp_price := -5; sp_commission := None; sp_image := None |}.

Lemma negative_price_sale_still_recorded_witness :
  List.find (fun p => String.eqb (sp_id p) "p2") [sproduct_neg] = Some sproduct_neg /\
  sp_price sproduct_neg < 0 /\
  let '(w', _) := handleQuantityChange [sproduct_neg] "u1" "p2" true Ok true world0 in
  backend w' = backend world0 ++
     [{| s_userId := "u1"; s_products := [("p2", 1%Z)]; s_total := sp_price sproduct_neg |}] /\
  error (scr w') = "Preço do produto não pode ser negativo.".
Proof.
  assert (Hp : sp_price sproduct_neg < 0) by (vm_compute; reflexivity).
  refine (conj eq_refl (conj Hp _)).
  apply (negative_price_sale_still_recorded [sproduct_neg] "u1" "p2" true world0 sproduct_neg);
    [reflexivity | exact Hp].
Defined.

Lemma sales_in_sync_with_backend_witness :
  Forall (fun s => s_userId s <> "u1") [] /\
  let w := run [sproduct0] "u1" presses0
             {| scr := {| sales := ∅; allSales := []; processingProduct := None;
                          success := ""; error := "" |};
                backend := [] |} in
  forall p, get (sales (scr w)) p = backend_count "u1" (backend w) p.
Proof.
  split; [constructor |].
  apply (sales_in_sync_with_backend [sproduct0] "u1" [] presses0). constructor.
Defined.
